(** * Prior-backup of DML statements in bytebase

    Two parts of the repository are embedded here.

    - [Transform]: the DML-to-backup-SELECT transformation
      ([base.TransformDMLToSelect]).  Its Go source is not part of this
      snapshot; only its YAML fixtures are, so it is modelled from the
      specification and then evaluated on the fixture inputs.
    - [Executor]: [DataUpdateExecutor.backupData] and [RunOnce] of
      backend/runner/taskrun/data_update_executor.go, with the store, the
      drivers, the schema syncer and the transformation as collaborators. *)

From Stdlib Require Import List Ascii String Arith Lia Bool.
From Stdlib Require Import DecimalNat.
Import ListNotations.

Module Transform.

(** ** Characters *)

Definition is_ws (c : ascii) : bool :=
  match nat_of_ascii c with
  | 32 | 9 | 10 | 13 => true
  | _ => false
  end.

Definition upper (c : ascii) : ascii :=
  let n := nat_of_ascii c in
  if (97 <=? n) && (n <=? 122) then ascii_of_nat (n - 32) else c.

Fixpoint eq_chars (a b : list ascii) : bool :=
  match a, b with
  | [], [] => true
  | x :: a', y :: b' => Ascii.eqb x y && eq_chars a' b'
  | _, _ => false
  end.

(** Keywords are matched without regard to case. *)
Definition kw (k : string) (w : list ascii) : bool :=
  eq_chars (map upper w) (list_ascii_of_string k).

Definition chars (s : string) : list ascii := list_ascii_of_string s.

Fixpoint skip_ws (s : list ascii) : list ascii :=
  match s with
  | c :: r => if is_ws c then skip_ws r else s
  | [] => []
  end.

Definition trim (s : list ascii) : list ascii := rev (skip_ws (rev (skip_ws s))).

(** ** Data model (spec section 3) *)

Record position := mkPos { line : nat; column : nat }.

Record statement := mkStmt {
  st_text : list ascii;
  st_start : position;
  st_end : position
}.

Record table_ref := mkTable { tbl_schema : list ascii; tbl_name : list ascii }.

Inductive dml_kind := Delete | Update.

Record dml_descriptor := mkDesc {
  d_kind : dml_kind;
  d_primary : table_ref;
  d_aux : list (list ascii);
  d_filter : list ascii
}.

Inductive analysis :=
| Applicable (d : dml_descriptor)
| NotApplicable
| ParseFailure.

Record transform_result := mkResult {
  tr_statement : list ascii;
  tr_source_schema : list ascii;
  tr_source_table : list ascii;
  tr_target_table : list ascii;
  tr_start : position;
  tr_end : position
}.

Record parse_failure := mkFailure {
  pf_ordinal : nat;
  pf_start : position;
  pf_end : position
}.

Inductive malformed_script := MalformedScript.

(** ** Script splitter (spec 4.1) *)

(** Every character of the script with its position: line 1-based,
    column 0-based. *)
Fixpoint annotate (s : list ascii) (l c : nat) : list (ascii * position) :=
  match s with
  | [] => []
  | x :: r =>
      (x, mkPos l c) ::
      (if Ascii.eqb x "010"%char then annotate r (S l) 0 else annotate r l (S c))
  end.

Inductive lex_state := LNormal | LSingle | LDouble | LLine | LBlock.

Fixpoint split_chunks (st : lex_state) (cur : list (ascii * position))
    (s : list (ascii * position)) : option (list (list (ascii * position))) :=
  match st, s with
  | LNormal, (";"%char, _) :: r =>
      option_map (cons (rev cur)) (split_chunks LNormal [] r)
  | LNormal, ("'"%char, p) :: r => split_chunks LSingle (("'"%char, p) :: cur) r
  | LNormal, ("034"%char, p) :: r => split_chunks LDouble (("034"%char, p) :: cur) r
  | LNormal, ("-"%char, p) :: ("-"%char, q) :: r =>
      split_chunks LLine (("-"%char, q) :: ("-"%char, p) :: cur) r
  | LNormal, ("/"%char, p) :: ("*"%char, q) :: r =>
      split_chunks LBlock (("*"%char, q) :: ("/"%char, p) :: cur) r
  | LSingle, ("'"%char, p) :: r => split_chunks LNormal (("'"%char, p) :: cur) r
  | LDouble, ("034"%char, p) :: r => split_chunks LNormal (("034"%char, p) :: cur) r
  | LLine, ("010"%char, p) :: r => split_chunks LNormal (("010"%char, p) :: cur) r
  | LBlock, ("*"%char, p) :: ("/"%char, q) :: r =>
      split_chunks LNormal (("/"%char, q) :: ("*"%char, p) :: cur) r
  | _, x :: r => split_chunks st (x :: cur) r
  | (LNormal | LLine), [] => Some [rev cur]
  | (LSingle | LDouble | LBlock), [] => None
  end.

Fixpoint skip_ws_ann (s : list (ascii * position)) : list (ascii * position) :=
  match s with
  | (c, p) :: r => if is_ws c then skip_ws_ann r else s
  | [] => []
  end.

Definition trim_ann (s : list (ascii * position)) : list (ascii * position) :=
  rev (skip_ws_ann (rev (skip_ws_ann s))).

Definition to_statement (chunk : list (ascii * position)) : option statement :=
  match trim_ann chunk with
  | [] => None
  | (c, p) :: r =>
      Some (mkStmt (map fst ((c, p) :: r)) p (snd (last ((c, p) :: r) (c, p))))
  end.

Fixpoint filter_stmts (cs : list (list (ascii * position))) : list statement :=
  match cs with
  | [] => []
  | c :: r =>
      match to_statement c with
      | Some st => st :: filter_stmts r
      | None => filter_stmts r
      end
  end.

Definition split (script : string) : option (list statement) :=
  option_map filter_stmts (split_chunks LNormal [] (annotate (chars script) 1 0)).

(** ** Dialect grammar adapter (spec 4.2) *)



(** The words of a statement, each paired with the text that follows it. *)
Fixpoint words_acc (s cur : list ascii) : list (list ascii * list ascii) :=
  match s with
  | [] => match cur with [] => [] | _ => [(rev cur, [])] end
  | c :: r =>
      if is_ws c then
        match cur with
        | [] => words_acc r []
        | _ => (rev cur, s) :: words_acc r []
        end
      else words_acc r (c :: cur)
  end.

Definition words (s : list ascii) := words_acc s [].

Fixpoint break_at (p : list ascii -> bool) (ws : list (list ascii * list ascii))
    : list (list ascii * list ascii) * list (list ascii * list ascii) :=
  match ws with
  | [] => ([], [])
  | (w, a) :: r =>
      if p w then ([], ws)
      else let (x, y) := break_at p r in ((w, a) :: x, y)
  end.

(** The source text from [a] up to the first word of [next]. *)
Definition text_before (a : list ascii) (next : list (list ascii * list ascii)) :=
  match next with
  | [] => a
  | (w, a') :: _ => firstn (List.length a - (List.length w + List.length a')) a
  end.

Fixpoint split_on (sep : ascii) (s cur : list ascii) : list (list ascii) :=
  match s with
  | [] => [rev cur]
  | c :: r => if Ascii.eqb c sep then rev cur :: split_on sep r [] else split_on sep r (c :: cur)
  end.

Definition is_nil {A} (l : list A) : bool := match l with [] => true | _ => false end.

Definition parse_table (t : list ascii) : option table_ref :=
  match split_on "." t [] with
  | [n] => if is_nil n then None else Some (mkTable [] n)
  | [s; n] => if is_nil s || is_nil n then None else Some (mkTable s n)
  | _ => None
  end.

(** [WHERE <cond>] or nothing; the condition is the verbatim rest of the
    statement. *)
Definition filter_clause (rest : list (list ascii * list ascii)) : option (list ascii) :=
  match rest with
  | [] => Some []
  | (w, a) :: _ =>
      if kw "WHERE" w then
        match skip_ws a with [] => None | f => Some f end
      else None
  end.

(** [USING T2, T3 ... [WHERE <cond>]] or [FROM T2, T3 ... [WHERE <cond>]]. *)
Definition aux_and_filter (rest : list (list ascii * list ascii))
    : option (list (list ascii) * list ascii) :=
  match rest with
  | [] => None
  | (_, a) :: r =>
      let tl := snd (break_at (kw "WHERE") r) in
      let aux := map trim (split_on "," (text_before a tl) []) in
      if existsb is_nil aux then None
      else option_map (pair aux) (filter_clause tl)
  end.

Definition delete_tail (rest : list (list ascii * list ascii))
    : option (list (list ascii) * list ascii) :=
  match rest with
  | [] => Some ([], [])
  | (w, _) :: _ =>
      if kw "WHERE" w then option_map (pair []) (filter_clause rest)
      else if kw "USING" w then aux_and_filter rest
      else None
  end.

(** After [SET]: the assignments are skipped up to [FROM] or [WHERE]. *)
Definition update_tail (rest : list (list ascii * list ascii))
    : option (list (list ascii) * list ascii) :=
  let (assign, tl) := break_at (fun w => kw "FROM" w || kw "WHERE" w) rest in
  if is_nil assign then None
  else match tl with
       | [] => Some ([], [])
       | (w, _) :: _ =>
           if kw "FROM" w then aux_and_filter tl
           else option_map (pair []) (filter_clause tl)
       end.

Definition build (k : dml_kind) (t : list ascii)
    (o : option (list (list ascii) * list ascii)) : analysis :=
  match parse_table t, o with
  | Some tr, Some (aux, f) => Applicable (mkDesc k tr aux f)
  | _, _ => ParseFailure
  end.

Definition analyze (text : list ascii) : analysis :=
  match words text with
  | (w0, _) :: r =>
      if kw "DELETE" w0 then
        match r with
        | (w1, _) :: (t, _) :: rest =>
            if kw "FROM" w1 then build Delete t (delete_tail rest) else ParseFailure
        | _ => ParseFailure
        end
      else if kw "UPDATE" w0 then
        match r with
        | (t, _) :: (w2, _) :: rest =>
            if kw "SET" w2 then build Update t (update_tail rest) else ParseFailure
        | _ => ParseFailure
        end
      else NotApplicable
  | [] => NotApplicable
  end.

(** ** Naming and quoting context (spec 4.3) *)

Inductive dialect := Postgres | Oracle | MySQL | TiDB | MSSQL.

Definition quote (d : dialect) (name : list ascii) : list ascii :=
  match d with
  | Postgres | Oracle => "034"%char :: name ++ ["034"%char]
  | MySQL | TiDB => "`"%char :: name ++ ["`"%char]
  | MSSQL => "["%char :: name ++ ["]"%char]
  end.

Fixpoint uint_chars (u : Decimal.uint) : list ascii :=
  match u with
  | Decimal.Nil => []
  | Decimal.D0 u => "0"%char :: uint_chars u
  | Decimal.D1 u => "1"%char :: uint_chars u
  | Decimal.D2 u => "2"%char :: uint_chars u
  | Decimal.D3 u => "3"%char :: uint_chars u
  | Decimal.D4 u => "4"%char :: uint_chars u
  | Decimal.D5 u => "5"%char :: uint_chars u
  | Decimal.D6 u => "6"%char :: uint_chars u
  | Decimal.D7 u => "7"%char :: uint_chars u
  | Decimal.D8 u => "8"%char :: uint_chars u
  | Decimal.D9 u => "9"%char :: uint_chars u
  end.

Definition nat_chars (n : nat) : list ascii := uint_chars (Nat.to_uint n).

(** [rollback_<index>_<sourceTable>] *)
Definition target_table_name (idx : nat) (source : list ascii) : list ascii :=
  chars "rollback_" ++ nat_chars idx ++ "_"%char :: source.

(** ** Statement synthesizer (spec 4.4) *)

Definition from_list (d : dml_descriptor) : list ascii :=
  tbl_name (d_primary d) ++ List.concat (map (fun x => chars ", " ++ x) (d_aux d)).

Definition where_clause (f : list ascii) : list ascii :=
  match f with [] => [] | _ => chars " WHERE " ++ f end.

Definition synthesize (dl : dialect) (backup_schema : list ascii) (idx : nat)
    (st : statement) (d : dml_descriptor) : transform_result :=
  let name := tbl_name (d_primary d) in
  let target := target_table_name idx name in
  mkResult
    (chars "CREATE TABLE " ++ quote dl backup_schema ++ "."%char :: quote dl target
       ++ chars " AS SELECT " ++ quote dl name ++ chars ".* FROM " ++ from_list d
       ++ where_clause (d_filter d) ++ [";"%char])
    (tbl_schema (d_primary d)) name target (st_start st) (st_end st).

(** The statements in script order; [idx] is the naming context's next
    index, [ord] the 1-based ordinal of the statement. *)
Fixpoint transform_stmts (dl : dialect) (schema : list ascii) (idx ord : nat)
    (sts : list statement) : list transform_result * list parse_failure :=
  match sts with
  | [] => ([], [])
  | st :: r =>
      match analyze (st_text st) with
      | Applicable d =>
          let (rs, fs) := transform_stmts dl schema (S idx) (S ord) r in
          (synthesize dl schema idx st d :: rs, fs)
      | NotApplicable => transform_stmts dl schema idx (S ord) r
      | ParseFailure =>
          let (rs, fs) := transform_stmts dl schema idx (S ord) r in
          (rs, mkFailure ord (st_start st) (st_end st) :: fs)
      end
  end.

(** Modelled from the spec: [base.TransformDMLToSelect], whose source is not
    in this snapshot.  Split the script, analyse every statement, and
    synthesize the backup statements with a naming index starting at 0. *)
Definition transform (dl : dialect) (schema : list ascii) (script : string)
    : malformed_script + (list transform_result * list parse_failure) :=
  match split script with
  | None => inl MalformedScript
  | Some sts => inr (transform_stmts dl schema 0 1 sts)
  end.

Definition backup_schema := chars "backupSchema".

(** Successive, independent invocations of the transformation. *)
Definition invocations (dl : dialect) (schema : list ascii) (scripts : list string)
    : list (malformed_script + (list transform_result * list parse_failure)) :=
  map (transform dl schema) scripts.

End Transform.

Module Executor.

Local Open Scope string_scope.

(** ** Data model of data_update_executor.go *)

Inductive engine :=
| Engine_MYSQL | Engine_TIDB | Engine_MSSQL | Engine_POSTGRES | Engine_ORACLE
| Engine_OTHER.

Definition engine_eqb (a b : engine) : bool :=
  match a, b with
  | Engine_MYSQL, Engine_MYSQL | Engine_TIDB, Engine_TIDB
  | Engine_MSSQL, Engine_MSSQL | Engine_POSTGRES, Engine_POSTGRES
  | Engine_ORACLE, Engine_ORACLE | Engine_OTHER, Engine_OTHER => true
  | _, _ => false
  end.

Definition error := string.

(** Go's [errors.Wrap(err, msg)]. *)
Definition wrap (msg : string) (e : error) : error := msg ++ ": " ++ e.

Record instance := mkInstance {
  inst_engine : engine;
  inst_resource_id : string
}.

Record database := mkDatabase {
  db_uid : nat;
  db_instance_id : string;
  db_name : string
}.

Record issue := mkIssue { issue_uid : nat; issue_project : string }.

Record task := mkTask {
  task_id : nat;
  task_instance_id : nat;
  task_database_id : nat;
  task_pipeline_id : nat;
  task_stage_id : nat;
  task_payload : string
}.

Record pre_update_backup_detail := mkPreUpdate { pubd_database : string }.

Record payload := mkPayload {
  pl_sheet_id : nat;
  pl_schema_version : string;
  pl_pre_update_backup_detail : option pre_update_backup_detail
}.

(** [base.BackupStatement], the element type returned by
    [base.TransformDMLToSelect]. *)
Record backup_statement := mkBackupStatement {
  bs_statement : string;
  bs_source_schema : string;
  bs_source_table : string;
  bs_target_table : string;
  bs_start : Transform.position;
  bs_end : Transform.position
}.

Record transform_context := mkTransformContext {
  tc_instance_id : string;
  tc_version : string
}.

Record item_table := mkItemTable {
  it_database : string;
  it_schema : string;
  it_table : string
}.

(** [storepb.PriorBackupDetail_Item] and [storepb.PriorBackupDetail]. *)
Record backup_item := mkItem {
  item_source : item_table;
  item_target : item_table;
  item_start : Transform.position;
  item_end : Transform.position
}.

Record prior_backup_detail := mkDetail { items : list backup_item }.

Record task_run_result := mkTaskRunResult {
  trr_detail : string;
  trr_prior_backup_detail : option prior_backup_detail
}.

(** The [TaskPriorBackup] issue comment payload. *)
Record issue_comment := mkComment {
  ic_issue_uid : nat;
  ic_task : string;
  ic_database : string;
  ic_schema : string;
  ic_table : string
}.

(** A database driver handle. *)
Definition driver := nat.

(** ** Effects: the calls made to collaborators, in order *)

Inductive event :=
| EvGetInstance (uid : nat)
| EvGetDatabase (uid : nat)
| EvGetIssue (pipeline : nat)
| EvGetBackupDatabase (instance_id name : string)
| EvGetDriver (db : database)
| EvOracleVersion (d : driver)
| EvTransform (statement : string)
| EvExecute (d : driver) (statement : string)
| EvCreateIssueComment (c : issue_comment)
| EvWarn (msg : string)
| EvSyncSchema (db : option database)
| EvLogError (msg : string)
| EvGetSheet (sheet : nat)
| EvRunMigration (statement : string).

(** A Go function either returns (with [err == nil]), returns an error, or
    panics on a nil dereference. *)
Inductive outcome (A : Type) :=
| Ok (a : A)
| Err (e : error)
| Panic.
Arguments Ok {A} a.
Arguments Err {A} e.
Arguments Panic {A}.

Definition M (A : Type) := list event -> outcome A * list event.

Definition ret {A} (a : A) : M A := fun tr => (Ok a, tr).
Definition fail {A} (e : error) : M A := fun tr => (Err e, tr).
Definition panic {A} : M A := fun tr => (Panic, tr).
Definition emit (e : event) : M unit := fun tr => (Ok tt, List.app tr [e]).

Definition bind {A B} (m : M A) (f : A -> M B) : M B :=
  fun tr =>
    match m tr with
    | (Ok a, tr') => f a tr'
    | (Err e, tr') => (Err e, tr')
    | (Panic, tr') => (Panic, tr')
    end.

Notation "x <- m ;; k" := (bind m (fun x => k))
  (at level 61, m at next level, right associativity).
Notation "m ;;; k" := (bind m (fun _ => k))
  (at level 61, right associativity).

(** Go's [if err != nil { return nil, errors.Wrap(err, msg) }]. *)
Definition check {A} (msg : string) (r : A + error) : M A :=
  match r with
  | inl a => ret a
  | inr e => fail (wrap msg e)
  end.

(** Dereferencing a possibly nil pointer. *)
Definition deref {A} (o : option A) : M A :=
  match o with
  | Some a => ret a
  | None => panic
  end.

(** Catch the error of a call, for a caller that handles it as a value. *)
Definition try {A} (m : M A) : M (A + error) :=
  fun tr =>
    match m tr with
    | (Ok a, tr') => (Ok (inl a), tr')
    | (Err e, tr') => (Ok (inr e), tr')
    | (Panic, tr') => (Panic, tr')
    end.

(** The collaborators of the executor: store, drivers, schema syncer,
    [TransformDMLToSelect], the migration runner, and the pure helpers of
    package [common] that are not in this snapshot. *)
Record env := mkEnv {
  unmarshal_payload : string -> payload + error;
  get_sheet_statement : nat -> string + error;
  get_instance : nat -> option instance + error;
  get_database_by_uid : nat -> option database + error;
  get_issue : nat -> option issue + error;
  get_database_by_name : string -> string -> option database + error;
  get_instance_database_id : string -> (string * string) + error;
  format_database : string -> string -> string;
  format_task : string -> nat -> nat -> nat -> string;
  get_admin_driver : instance -> database -> driver + error;
  oracle_version : driver -> option string;
  now_prefix : string;
  transform_dml : engine -> transform_context -> string -> string -> string -> string
                  -> list backup_statement * option error;
  execute : driver -> string -> option error;
  create_issue_comment : issue_comment -> option error;
  sync_schema : option database -> option error;
  run_migration : task -> nat -> string -> string
                  -> bool * option task_run_result * option error
}.

Definition nat_str (n : nat) : string := string_of_list_ascii (Transform.nat_chars n).

Definition dq : string := String "034"%char EmptyString.

Section Executor.

Variable E : env.

Definition exec (d : driver) (stmt : string) : option error :=
  execute E d stmt.

Definition run_exec (msg : string) (d : driver) (stmt : string) : M unit :=
  emit (EvExecute d stmt);;;
  match execute E d stmt with
  | None => ret tt
  | Some e => fail (wrap msg e)
  end.

Definition comment_statement (eng : engine) (backupDatabaseName : string) (st : backup_statement)
    (iss : issue) : option (bool * string) :=
  (* [true]: run on the backup driver (MSSQL), [false]: on the source driver. *)
  match eng with
  | Engine_TIDB | Engine_MYSQL =>
      Some (false, "ALTER TABLE `" ++ backupDatabaseName ++ "`.`" ++ bs_target_table st
                   ++ "` COMMENT = 'issue " ++ nat_str (issue_uid iss) ++ "'")
  | Engine_MSSQL =>
      Some (true, "EXEC sp_addextendedproperty 'MS_Description', 'issue " ++ nat_str (issue_uid iss)
                  ++ "', 'SCHEMA', 'dbo', 'TABLE', '" ++ bs_target_table st ++ "'")
  | Engine_POSTGRES | Engine_ORACLE =>
      Some (false, "COMMENT ON TABLE " ++ dq ++ backupDatabaseName ++ dq ++ "." ++ dq
                   ++ bs_target_table st ++ dq ++ " IS 'issue " ++ nat_str (issue_uid iss) ++ "'")
  | Engine_OTHER => None
  end.

Definition item_of (sourceDatabaseName targetDatabaseName : string) (st : backup_statement)
    : backup_item :=
  mkItem (mkItemTable sourceDatabaseName "" (bs_source_table st))
         (mkItemTable targetDatabaseName "" (bs_target_table st))
         (bs_start st) (bs_end st).

Definition comment_of (iss : issue) (t : task) (backupDatabaseName : string)
    (st : backup_statement) : issue_comment :=
  mkComment (issue_uid iss)
    (format_task E (issue_project iss) (task_pipeline_id t) (task_stage_id t) (task_id t))
    backupDatabaseName "" (bs_target_table st).

(** The engine-specific table comment on the backup table. *)
Definition set_table_comment (eng : engine) (backupDatabaseName : string) (st : backup_statement)
    (iss : issue) (drv : driver) (backupDriver : option driver) : M unit :=
  match comment_statement eng backupDatabaseName st iss with
  | None => ret tt
  | Some (false, c) => run_exec "failed to set table comment" drv c
  | Some (true, c) =>
      bd <- deref backupDriver;;
      run_exec "failed to set table comment" bd c
  end.

(** [exec.store.CreateIssueComment]; a failure is only logged. *)
Definition record_issue_comment (c : issue_comment) : M unit :=
  emit (EvCreateIssueComment c);;;
  match create_issue_comment E c with
  | None => ret tt
  | Some _ => emit (EvWarn "failed to create issue comment")
  end.

(** The [for _, statement := range statements] loop of [backupData]; [acc]
    is [priorBackupDetail.Items]. *)
Fixpoint backup_loop (eng : engine) (iss : issue) (t : task) (drv : driver)
    (backupDriver : option driver)
    (sourceDatabaseName targetDatabaseName backupDatabaseName : string)
    (acc : list backup_item) (sts : list backup_statement) : M (list backup_item) :=
  match sts with
  | [] => ret acc
  | st :: rest =>
      run_exec ("failed to execute backup statement " ++ bs_statement st) drv (bs_statement st);;;
      set_table_comment eng backupDatabaseName st iss drv backupDriver;;;
      record_issue_comment (comment_of iss t backupDatabaseName st);;;
      backup_loop eng iss t drv backupDriver sourceDatabaseName targetDatabaseName
        backupDatabaseName
        (List.app acc [item_of sourceDatabaseName targetDatabaseName st]) rest
  end.

Definition sync_log (db : option database) : M unit :=
  emit (EvSyncSchema db);;;
  match sync_schema E db with
  | None => ret tt
  | Some _ => emit (EvLogError "failed to sync backup database schema")
  end.

(** [tc]: the instance's resource id, and for Oracle the version reported by
    the driver when it is an [oracle.Driver] and [GetVersion] succeeds. *)
Definition transform_context_of (inst : instance) (drv : driver) : transform_context :=
  mkTransformContext (inst_resource_id inst)
    (if engine_eqb (inst_engine inst) Engine_ORACLE then
       match oracle_version E drv with Some v => v | None => "" end
     else "").

(** [DataUpdateExecutor.backupData]; [Ok None] is Go's [return nil, nil]. *)
Definition backupData (statement : string) (pl : payload) (t : task)
    : M (option prior_backup_detail) :=
  match pl_pre_update_backup_detail pl with
  | None => ret None
  | Some pubd =>
    if String.eqb (pubd_database pubd) "" then ret None else
    emit (EvGetInstance (task_instance_id t));;;
    instance_o <- check "failed to get instance" (get_instance E (task_instance_id t));;
    emit (EvGetDatabase (task_database_id t));;;
    database_o <- check "failed to get database" (get_database_by_uid E (task_database_id t));;
    emit (EvGetIssue (task_pipeline_id t));;;
    issue_o <- check ("failed to find issue for pipeline " ++ nat_str (task_pipeline_id t))
                 (get_issue E (task_pipeline_id t));;
    match issue_o with
    | None => fail ("issue not found for pipeline " ++ nat_str (task_pipeline_id t))
    | Some iss =>
      database <- deref database_o;;
      let sourceDatabaseName := format_database E (db_instance_id database) (db_name database) in
      let targetDatabaseName := pubd_database pubd in
      ids <- check "failed to parse backup database" (get_instance_database_id E targetDatabaseName);;
      let (backupInstanceID, backupDatabaseName) := ids in
      instance <- deref instance_o;;
      backup <- (if engine_eqb (inst_engine instance) Engine_POSTGRES then ret (None, None) else
                 emit (EvGetBackupDatabase backupInstanceID backupDatabaseName);;;
                 bdo <- check "failed to get backup database"
                          (get_database_by_name E backupInstanceID backupDatabaseName);;
                 match bdo with
                 | None => fail ("backup database " ++ targetDatabaseName ++ " not found")
                 | Some bdb =>
                     emit (EvGetDriver bdb);;;
                     bdrv <- check "failed to get backup database driver"
                               (get_admin_driver E instance bdb);;
                     ret (Some bdb, Some bdrv)
                 end);;
      let (backupDatabase, backupDriver) := backup in
      emit (EvGetDriver database);;;
      drv <- check "failed to get database driver" (get_admin_driver E instance database);;
      (if engine_eqb (inst_engine instance) Engine_ORACLE
       then emit (EvOracleVersion drv) else ret tt);;;
      let tc := transform_context_of instance drv in
      let prefix := "_" ++ now_prefix E in
      emit (EvTransform statement);;;
      let (statements, err) :=
        transform_dml E (inst_engine instance) tc statement (db_name database)
          backupDatabaseName prefix in
      match err with
      | Some e => fail (wrap "failed to transform DML to select" e)
      | None =>
        its <- backup_loop (inst_engine instance) iss t drv backupDriver sourceDatabaseName
                 targetDatabaseName backupDatabaseName [] statements;;
        (if engine_eqb (inst_engine instance) Engine_POSTGRES
         then sync_log (Some database) else sync_log backupDatabase);;;
        ret (Some (mkDetail its))
      end
    end
  end.

Definition set_prior_backup (pbd : option prior_backup_detail) (r : task_run_result) :=
  mkTaskRunResult (trr_detail r) pbd.

(** Whether an event runs SQL on a database: a statement on a driver, or the
    migration itself. *)
Definition runs_sql (x : event) : bool :=
  match x with
  | EvExecute _ _ | EvRunMigration _ => true
  | _ => false
  end.

(** The lookups of [backupData] before the transformation all succeed: the
    backup target is set, instance, database and issue are found, the backup
    database name parses, and (except for Postgres) the backup database and
    its driver are found; [drv] is the source database driver. *)
Definition lookups_ok (pl : payload) (t : task) (pubd : pre_update_backup_detail)
    (inst : instance) (db : database) (iss : issue) (bi bn : string) (bdb : database)
    (bdrv drv : driver) : Prop :=
  pl_pre_update_backup_detail pl = Some pubd /\
  pubd_database pubd <> "" /\
  get_instance E (task_instance_id t) = inl (Some inst) /\
  get_database_by_uid E (task_database_id t) = inl (Some db) /\
  get_issue E (task_pipeline_id t) = inl (Some iss) /\
  get_instance_database_id E (pubd_database pubd) = inl (bi, bn) /\
  (inst_engine inst <> Engine_POSTGRES ->
     get_database_by_name E bi bn = inl (Some bdb) /\ get_admin_driver E inst bdb = inl bdrv) /\
  get_admin_driver E inst db = inl drv.

Definition backup_driver_of (inst : instance) (bdrv : driver) : option driver :=
  if engine_eqb (inst_engine inst) Engine_POSTGRES then None else Some bdrv.

Definition sync_target_of (inst : instance) (db bdb : database) : option database :=
  if engine_eqb (inst_engine inst) Engine_POSTGRES then Some db else Some bdb.

(** [DataUpdateExecutor.RunOnce]: (terminated, result, err). *)
Definition RunOnce (t : task) (taskRunUID : nat)
    : M (bool * option task_run_result * option error) :=
  match unmarshal_payload E (task_payload t) with
  | inr e => ret (true, None, Some (wrap "invalid database data update payload" e))
  | inl pl =>
    emit (EvGetSheet (pl_sheet_id pl));;;
    match get_sheet_statement E (pl_sheet_id pl) with
    | inr e => ret (true, None, Some e)
    | inl statement =>
      b <- try (backupData statement pl t);;
      match b with
      | inr e => ret (true, None, Some e)
      | inl priorBackupDetail =>
        emit (EvRunMigration statement);;;
        let '(terminated, result, err) :=
          run_migration E t taskRunUID statement (pl_schema_version pl) in
        ret (terminated, option_map (set_prior_backup priorBackupDetail) result, err)
      end
    end
  end.

End Executor.

(** [BuildGetDatabaseMetadataFunc]: the metadata lookup handed to the
    transformation, over the store's [GetDatabaseV2] (the [get_database_by_name]
    of [E]) and [GetDBSchema]; [get_database_metadata] is the getter
    [DBSchema.GetDatabaseMetadata]. The result is Go's
    [(string, *DatabaseMetadata, error)]. *)
Section Metadata.

Context {db_schema database_metadata : Type}.
Variable E : env.
Variable get_db_schema : nat -> option db_schema + error.
Variable get_database_metadata : db_schema -> option database_metadata.

Definition BuildGetDatabaseMetadataFunc (instanceID databaseName : string)
    : string * option database_metadata * option error :=
  match get_database_by_name E instanceID databaseName with
  | inr e => ("", None, Some e)
  | inl None => ("", None, None)
  | inl (Some database) =>
      match get_db_schema (db_uid database) with
      | inr e => ("", None, Some e)
      | inl None => ("", None, None)
      | inl (Some databaseMetadata) =>
          (databaseName, get_database_metadata databaseMetadata, None)
      end
  end.

End Metadata.

(** ** Views of a trace *)

(** The SQL run on drivers, in order. *)
Fixpoint executed (tr : list event) : list (driver * string) :=
  match tr with
  | [] => []
  | EvExecute d s :: r => (d, s) :: executed r
  | _ :: r => executed r
  end.

(** The issue comments created, in order. *)
Fixpoint issue_comments (tr : list event) : list issue_comment :=
  match tr with
  | [] => []
  | EvCreateIssueComment c :: r => c :: issue_comments r
  | _ :: r => issue_comments r
  end.

(** An execution as an event. *)
Definition ev_exec (x : driver * string) : event := EvExecute (fst x) (snd x).

(** The events the loop of [backupData] emits. *)
Definition loop_event (x : event) : bool :=
  match x with
  | EvExecute _ _ | EvCreateIssueComment _ | EvWarn _ => true
  | _ => false
  end.

(** The table comment statement of a backup table, on the driver the loop of
    [backupData] runs it on. *)
Definition comment_sql (eng : engine) (iss : issue) (backupDatabaseName : string)
    (drv : driver) (backupDriver : option driver) (st : backup_statement)
    : list (driver * string) :=
  match comment_statement eng backupDatabaseName st iss with
  | None => []
  | Some (false, c) => [(drv, c)]
  | Some (true, c) =>
      match backupDriver with
      | Some b => [(b, c)]
      | None => []
      end
  end.

(** The SQL of one iteration: the backup statement on the source database's
    driver, then the table comment. *)
Definition backup_sql (eng : engine) (iss : issue) (backupDatabaseName : string)
    (drv : driver) (backupDriver : option driver) (st : backup_statement)
    : list (driver * string) :=
  (drv, bs_statement st) :: comment_sql eng iss backupDatabaseName drv backupDriver st.

(** The calls [backupData] makes before running any SQL, when every lookup
    succeeds. *)
Definition lookup_events (t : task) (inst : instance) (db : database) (bi bn : string)
    (bdb : database) (drv : driver) (statement : string) : list event :=
  [EvGetInstance (task_instance_id t); EvGetDatabase (task_database_id t);
   EvGetIssue (task_pipeline_id t)] ++
  (if engine_eqb (inst_engine inst) Engine_POSTGRES then []
   else [EvGetBackupDatabase bi bn; EvGetDriver bdb]) ++
  [EvGetDriver db] ++
  (if engine_eqb (inst_engine inst) Engine_ORACLE then [EvOracleVersion drv] else []) ++
  [EvTransform statement].


End Executor.

(** * Fixture data of the transformation (src/unnamed/part_000) *)

Module Fixtures.

Import Transform.
Local Open Scope string_scope.

Definition nl : string := String "010"%char EmptyString.

(** A double-quoted identifier. *)
Definition qs (s : string) : string :=
  String "034"%char (s ++ String "034"%char EmptyString).

(** The first fixture: input, and its recorded end position. *)
Definition fixture1_input : string :=
  "DELETE FROM t" ++ nl ++ "USING test" ++ nl ++ "WHERE t.c1 = 1 and t.a1 = test.a1;".


(** The second fixture. *)
Definition fixture2_input : string :=
  "DELETE FROM test" ++ nl ++ "USING test2" ++ nl ++ "WHERE test.c1 = 1 and test.c1 = test2.c1;".






(** Statement text, source schema, source table and target table of a
    result, as strings. *)
Definition texts (r : transform_result) : string * string * string * string :=
  (string_of_list_ascii (tr_statement r), string_of_list_ascii (tr_source_schema r),
   string_of_list_ascii (tr_source_table r), string_of_list_ascii (tr_target_table r)).

Definition run_texts (script : string) :=
  match transform Postgres backup_schema script with
  | inl _ => None
  | inr (rs, fs) => Some (map texts rs, fs)
  end.

Definition fixture3_input : string :=
  "UPDATE test" ++ nl ++ "SET test.c1 = 2" ++ nl ++ "FROM test2" ++ nl
  ++ "WHERE test.c1 = 1 and test.c1 = test2.c1;".

Definition fixture4_input : string :=
  "DELETE FROM test WHERE c1 = 1;" ++ nl ++ "UPDATE test SET test.c1 = 2 WHERE test.c1 = 1;".

Definition fixture6_input : string := "UPDATE test SET c1 = 1 WHERE c1=2;".

Definition fixture7_input : string :=
  "UPDATE test SET test.c1 = 2 WHERE test.c1 = 1 ;" ++ nl
  ++ "UPDATE test SET test.c1 = 3 WHERE test.c1 = 5 ;".

(** The expected statement of a fixture. *)
Definition backup_of (target primary from : string) : string :=
  "CREATE TABLE " ++ qs "backupSchema" ++ "." ++ qs target ++ " AS SELECT "
  ++ qs primary ++ ".* FROM " ++ from.

End Fixtures.

(** * Sample collaborators, for concrete runs of the executor *)

Module Samples.

Import Executor.
Local Open Scope string_scope.

Definition sample_statement : string := "DELETE FROM t WHERE c1 = 1; DELETE FROM t WHERE;".

Definition sample_payload : payload :=
  mkPayload 7 "0001" (Some (mkPreUpdate "instances/prod/databases/bbdataarchive")).

(** The same payload without a backup target. *)
Definition sample_payload_no_backup : payload := mkPayload 7 "0001" None.

Definition sample_task : task := mkTask 1 2 3 4 5 "{}".

Definition sample_instance : instance := mkInstance Engine_MYSQL "prod".

Definition sample_database : database := mkDatabase 3 "prod" "app".

Definition sample_backup_database : database := mkDatabase 9 "prod" "bbdataarchive".

Definition sample_issue : issue := mkIssue 11 "proj".

(** A backup statement as the transformation returns it for
    [DELETE FROM t WHERE c1 = 1]. *)
Definition sample_backup_statement : backup_statement :=
  mkBackupStatement
    "CREATE TABLE `bbdataarchive`.`_20240101000000_0_t` AS SELECT `t`.* FROM t WHERE c1 = 1;"
    "" "t" "_20240101000000_0_t" (Transform.mkPos 1 0) (Transform.mkPos 1 25).

(** Collaborators that find everything; a driver is the uid of its database.
    [pl]: the task's payload; [out]: what the transformation returns;
    [ex]: the result of [driver.Execute]; [cc]: the result of
    [CreateIssueComment]. *)
Definition sample_env (pl : payload) (out : list backup_statement * option error)
    (ex : driver -> string -> option error) (cc : option error) : env :=
  mkEnv
    (fun _ => inl pl)
    (fun _ => inl sample_statement)
    (fun _ => inl (Some sample_instance))
    (fun _ => inl (Some sample_database))
    (fun _ => inl (Some sample_issue))
    (fun _ _ => inl (Some sample_backup_database))
    (fun _ => inl ("prod", "bbdataarchive"))
    (fun i d => "instances/" ++ i ++ "/databases/" ++ d)
    (fun p _ _ _ => "projects/" ++ p ++ "/tasks")
    (fun _ d => inl (db_uid d))
    (fun _ => None)
    "20240101000000"
    (fun _ _ _ _ _ _ => out)
    ex
    (fun _ => cc)
    (fun _ => None)
    (fun _ _ _ _ => (false, Some (mkTaskRunResult "done" None), None)).





(** A driver that rejects one SQL text [bad] with [err] and runs any other. *)
Definition failing_on (bad : string) (err : error) : driver -> string -> option error :=
  fun _ s => if String.eqb s bad then Some err else None.

(** A second backup statement, for [DELETE FROM u WHERE c2 = 2]. *)
Definition sample_backup_statement2 : backup_statement :=
  mkBackupStatement
    "CREATE TABLE `bbdataarchive`.`_20240101000000_1_u` AS SELECT `u`.* FROM u WHERE c2 = 2;"
    "" "u" "_20240101000000_1_u" (Transform.mkPos 1 27) (Transform.mkPos 1 52).

(** The MySQL table comment on the backup table of [sample_backup_statement]. *)
Definition sample_comment_sql : string :=
  "ALTER TABLE `bbdataarchive`.`_20240101000000_0_t` COMMENT = 'issue 11'".

End Samples.


(** * Properties of the transformation *)

Module TransformFacts.

Import Transform Fixtures.

Lemma transform_stmts_indices dl sc sts : forall idx ord i r,
  nth_error (fst (transform_stmts dl sc idx ord sts)) i = Some r ->
  tr_target_table r = target_table_name (idx + i) (tr_source_table r).
Proof.
  induction sts as [|st sts IH]; intros idx ord i r Hn; simpl in Hn.
  - destruct i; discriminate.
  - destruct (analyze (st_text st)) as [d| |] eqn:Ha.
    + destruct (transform_stmts dl sc (S idx) (S ord) sts) as [rs fs] eqn:Hr.
      destruct i as [|i]; simpl in Hn.
      * injection Hn as <-. simpl. now rewrite Nat.add_0_r.
      * rewrite <- Nat.add_succ_comm.
        apply (IH (S idx) (S ord)). now rewrite Hr.
    + exact (IH idx (S ord) i r Hn).
    + destruct (transform_stmts dl sc idx (S ord) sts) as [rs fs] eqn:Hr.
      simpl in Hn. apply (IH idx (S ord)). now rewrite Hr.
Qed.








(** ** Words of a concatenation *)























(** ** Where the filter text comes from *)













(** The model reproduces the statements and names recorded in the fixtures. *)
Example fixture1_texts : run_texts fixture1_input = Some
  ([(backup_of "rollback_0_t" "t" "t, test WHERE t.c1 = 1 and t.a1 = test.a1;",
     ""%string, "t"%string, "rollback_0_t"%string)], []).
Proof. vm_compute. reflexivity. Qed.

Example fixture2_texts : run_texts fixture2_input = Some
  ([(backup_of "rollback_0_test" "test" "test, test2 WHERE test.c1 = 1 and test.c1 = test2.c1;",
     ""%string, "test"%string, "rollback_0_test"%string)], []).
Proof. vm_compute. reflexivity. Qed.

Example fixture3_texts : run_texts fixture3_input = Some
  ([(backup_of "rollback_0_test" "test" "test, test2 WHERE test.c1 = 1 and test.c1 = test2.c1;",
     ""%string, "test"%string, "rollback_0_test"%string)], []).
Proof. vm_compute. reflexivity. Qed.

Example fixture4_texts : run_texts fixture4_input = Some
  ([(backup_of "rollback_0_test" "test" "test WHERE c1 = 1;", ""%string, "test"%string, "rollback_0_test"%string);
    (backup_of "rollback_1_test" "test" "test WHERE test.c1 = 1;", ""%string, "test"%string, "rollback_1_test"%string)],
   []).
Proof. vm_compute. reflexivity. Qed.

Example fixture5_texts : run_texts "DELETE FROM test WHERE c1 = 1;" = Some
  ([(backup_of "rollback_0_test" "test" "test WHERE c1 = 1;", ""%string, "test"%string, "rollback_0_test"%string)], []).
Proof. vm_compute. reflexivity. Qed.

Example fixture6_texts : run_texts fixture6_input = Some
  ([(backup_of "rollback_0_test" "test" "test WHERE c1=2;", ""%string, "test"%string, "rollback_0_test"%string)], []).
Proof. vm_compute. reflexivity. Qed.

Example fixture7_texts : run_texts fixture7_input = Some
  ([(backup_of "rollback_0_test" "test" "test WHERE test.c1 = 1;", ""%string, "test"%string, "rollback_0_test"%string);
    (backup_of "rollback_1_test" "test" "test WHERE test.c1 = 5;", ""%string, "test"%string, "rollback_1_test"%string)],
   []).
Proof. vm_compute. reflexivity. Qed.

(** C1: the single statement [DELETE FROM t WHERE c1 = 1;] yields exactly one
    result, [CREATE TABLE "backupSchema"."rollback_0_t" AS SELECT "t".* FROM t
    WHERE c1 = 1;], with source table [t], source schema empty and target
    table [rollback_0_t]. *)
Theorem delete_where_single_result :
  run_texts "DELETE FROM t WHERE c1 = 1;" = Some
    ([(backup_of "rollback_0_t" "t" "t WHERE c1 = 1;", ""%string, "t"%string, "rollback_0_t"%string)], []).
Proof. vm_compute. reflexivity. Qed.



(** C4: the transformation is a function of its inputs: invoking it again on
    the same script gives the same results, whatever was transformed before,
    and every invocation numbers its backup tables from 0. *)
Theorem transform_invocations_restart dl sc pre s :
  invocations dl sc (pre ++ [s; s]) =
    invocations dl sc pre ++ [transform dl sc s; transform dl sc s] /\
  (forall rs fs, transform dl sc s = inr (rs, fs) ->
     forall i r, nth_error rs i = Some r ->
       tr_target_table r = target_table_name i (tr_source_table r)).
Proof.
  split.
  - unfold invocations. now rewrite map_app.
  - intros rs fs Ht i r Hn. unfold transform in Ht.
    destruct (split s) as [sts|]; [|discriminate].
    injection Ht as Ht.
    apply (transform_stmts_indices dl sc sts 0 1). now rewrite Ht.
Qed.

Lemma transform_invocations_restart_witness :
  invocations Postgres backup_schema ([fixture1_input] ++ [fixture4_input; fixture4_input]) =
    invocations Postgres backup_schema [fixture1_input]
    ++ [transform Postgres backup_schema fixture4_input;
        transform Postgres backup_schema fixture4_input] /\
  (forall rs fs, transform Postgres backup_schema fixture4_input = inr (rs, fs) ->
     forall i r, nth_error rs i = Some r ->
       tr_target_table r = target_table_name i (tr_source_table r)).
Proof.
  exact (transform_invocations_restart Postgres backup_schema [fixture1_input] fixture4_input).
Defined.








End TransformFacts.

(** * Properties of the executor *)

Module ExecutorFacts.

Import Executor.

Lemma bind_ok {A B} (m : M A) (f : A -> M B) tr a tr' :
  m tr = (Ok a, tr') -> bind m f tr = f a tr'.
Proof. unfold bind. intros ->. reflexivity. Qed.

Lemma bind_err {A B} (m : M A) (f : A -> M B) tr e tr' :
  m tr = (Err e, tr') -> bind m f tr = (Err e, tr').
Proof. unfold bind. intros ->. reflexivity. Qed.

Section Loop.

Variable E : env.
Variables (eng : engine) (iss : issue) (t : task) (drv : driver) (bd : option driver)
  (src tgt bn : string).

Hypothesis Hbd : eng = Engine_MSSQL -> bd <> None.

Lemma run_exec_ok msg d s tr : execute E d s = None ->
  run_exec E msg d s tr = (Ok tt, tr ++ [EvExecute d s]).
Proof. intro H. unfold run_exec, bind, emit. rewrite H. reflexivity. Qed.

Lemma run_exec_err msg d s tr e : execute E d s = Some e ->
  run_exec E msg d s tr = (Err (wrap msg e), tr ++ [EvExecute d s]).
Proof. intro H. unfold run_exec, bind, emit. rewrite H. reflexivity. Qed.

Lemma set_table_comment_ok st tr : (forall d s, execute E d s = None) ->
  exists ext, set_table_comment E eng bn st iss drv bd tr = (Ok tt, tr ++ ext).
Proof.
  intro Hex. unfold set_table_comment.
  destruct (comment_statement eng bn st iss) as [[[|] c]|] eqn:Hc.
  - destruct bd as [d|] eqn:Hd.
    + unfold bind, deref, ret. rewrite run_exec_ok by apply Hex. eexists. reflexivity.
    + exfalso. destruct eng; try discriminate. apply Hbd; reflexivity.
  - rewrite run_exec_ok by apply Hex. eexists. reflexivity.
  - exists []. rewrite app_nil_r. reflexivity.
Qed.

Lemma set_table_comment_not_ok st tr :
  exists o ext, set_table_comment E eng bn st iss drv bd tr = (o, tr ++ ext) /\ o <> Panic.
Proof.
  unfold set_table_comment.
  destruct (comment_statement eng bn st iss) as [[[|] c]|] eqn:Hc.
  - destruct bd as [d|] eqn:Hd.
    + unfold bind at 1, deref, ret. unfold run_exec, bind, emit.
      destruct (execute E d c); eexists; eexists; split; try reflexivity; discriminate.
    + exfalso. destruct eng; try discriminate. apply Hbd; reflexivity.
  - unfold run_exec, bind, emit.
    destruct (execute E drv c); eexists; eexists; split; try reflexivity; discriminate.
  - exists (Ok tt), []. rewrite app_nil_r. split; [reflexivity|discriminate].
Qed.

Lemma record_issue_comment_res c tr :
  record_issue_comment E c tr =
  (Ok tt, tr ++ EvCreateIssueComment c ::
            match create_issue_comment E c with
            | None => []
            | Some _ => [EvWarn "failed to create issue comment"]
            end).
Proof.
  unfold record_issue_comment, bind, emit, ret.
  destruct (create_issue_comment E c); [rewrite <- app_assoc|]; reflexivity.
Qed.

Lemma backup_loop_ok sts : forall acc tr,
  (forall d s, execute E d s = None) ->
  exists ext, backup_loop E eng iss t drv bd src tgt bn acc sts tr =
                (Ok (acc ++ map (item_of src tgt) sts), tr ++ ext) /\
    (forall st e, In st sts -> create_issue_comment E (comment_of E iss t bn st) = Some e ->
       In (EvWarn "failed to create issue comment") ext).
Proof.
  induction sts as [|st sts IH]; intros acc tr Hex.
  - exists []. rewrite !app_nil_r. split; [reflexivity|]. intros ? ? [].
  - cbn [backup_loop].
    rewrite (bind_ok _ _ _ _ _ (run_exec_ok _ _ _ tr (Hex _ _))).
    destruct (set_table_comment_ok st (tr ++ [EvExecute drv (bs_statement st)]) Hex) as [ext1 H1].
    rewrite (bind_ok _ _ _ _ _ H1).
    rewrite (bind_ok _ _ _ _ _ (record_issue_comment_res _ _)).
    match goal with
    | |- context [backup_loop E eng iss t drv bd src tgt bn ?a sts ?tr0] =>
        destruct (IH a tr0 Hex) as [ext2 [H2 Hw]]; rewrite H2
    end.
    eexists. split.
    + rewrite <- !app_assoc. reflexivity.
    + intros st' e' [<-|Hin] He'.
      * rewrite He'. simpl. rewrite !in_app_iff. simpl. intuition.
      * pose proof (Hw st' e' Hin He'). simpl. rewrite !in_app_iff. right. right. right. apply in_app_iff. auto.
Qed.

Lemma backup_loop_exec_fails sts : forall acc tr st e,
  In st sts -> execute E drv (bs_statement st) = Some e ->
  exists msg tr', backup_loop E eng iss t drv bd src tgt bn acc sts tr = (Err msg, tr').
Proof.
  induction sts as [|st0 sts IH]; intros acc tr st e Hin He; [destruct Hin|].
  cbn [backup_loop].
  destruct (execute E drv (bs_statement st0)) as [e0|] eqn:He0.
  - rewrite (bind_err _ _ _ _ _ (run_exec_err _ _ _ tr _ He0)). eauto.
  - rewrite (bind_ok _ _ _ _ _ (run_exec_ok _ _ _ tr He0)).
    destruct Hin as [<-|Hin]; [congruence|].
    destruct (set_table_comment_not_ok st0 (tr ++ [EvExecute drv (bs_statement st0)]))
      as [o [ext1 [H1 Ho]]].
    destruct o as [[]|e1|]; [|rewrite (bind_err _ _ _ _ _ H1); eauto|contradiction].
    rewrite (bind_ok _ _ _ _ _ H1).
    rewrite (bind_ok _ _ _ _ _ (record_issue_comment_res _ _)).
    eapply IH; eauto.
Qed.

End Loop.

Lemma sync_log_ok E db tr : exists ext, sync_log E db tr = (Ok tt, tr ++ ext).
Proof.
  unfold sync_log, bind, emit, ret. destruct (sync_schema E db).
  - rewrite <- app_assoc. eexists. reflexivity.
  - eexists. reflexivity.
Qed.

Lemma backupData_reduces E statement pl t pubd inst db iss bi bn bdb bdrv drv sts err tr :
  lookups_ok E pl t pubd inst db iss bi bn bdb bdrv drv ->
  transform_dml E (inst_engine inst) (transform_context_of E inst drv) statement (db_name db)
    bn ("_" ++ now_prefix E) = (sts, err) ->
  exists pre,
    backupData E statement pl t tr =
    match err with
    | Some e => (Err (wrap "failed to transform DML to select" e), tr ++ pre)
    | None =>
        bind (backup_loop E (inst_engine inst) iss t drv (backup_driver_of inst bdrv)
                (format_database E (db_instance_id db) (db_name db)) (pubd_database pubd) bn
                [] sts)
          (fun its => sync_log E (sync_target_of inst db bdb);;; ret (Some (mkDetail its)))
          (tr ++ pre)
    end /\
    existsb runs_sql pre = false.
Proof.
  intros (Hpl & Hne & Hi & Hd & His & Hid & Hbk & Hdrv) Htr.
  unfold backupData. rewrite Hpl.
  rewrite (proj2 (String.eqb_neq _ _) Hne).
  rewrite Hi, Hd, His, Hid.
  unfold backup_driver_of, sync_target_of, transform_context_of in *.
  cbv [bind emit check ret deref fail].
  destruct (inst_engine inst) eqn:Heng;
    try (destruct Hbk as [Hbd Hbdrv]; [discriminate|]; rewrite Hbd, Hbdrv);
    cbv [bind emit check ret deref fail]; cbn [engine_eqb];
    rewrite Hdrv; cbv [bind emit check ret deref fail]; cbn [engine_eqb];
    cbn [engine_eqb] in Htr; rewrite Htr; cbv [bind emit check ret deref fail];
    rewrite <- !app_assoc; cbn [List.app];
    (eexists; split; [destruct err; reflexivity | reflexivity]).
Qed.




(** C9: without a backup target ([PreUpdateBackupDetail] nil or its
    [Database] empty) [backupData] returns [(nil, nil)] and makes no call at
    all; [RunOnce] then runs the migration, with no prior backup detail. *)
Theorem no_backup_target_skips E statement pl t tr :
  (pl_pre_update_backup_detail pl = None \/
   exists p, pl_pre_update_backup_detail pl = Some p /\ pubd_database p = ""%string) ->
  backupData E statement pl t tr = (Ok None, tr) /\
  (forall uid,
     unmarshal_payload E (task_payload t) = inl pl ->
     get_sheet_statement E (pl_sheet_id pl) = inl statement ->
     RunOnce E t uid tr =
       (let '(terminated, result, err) :=
          run_migration E t uid statement (pl_schema_version pl) in
        (Ok (terminated, option_map (set_prior_backup None) result, err),
         tr ++ [EvGetSheet (pl_sheet_id pl); EvRunMigration statement]))).
Proof.
  intros Hno.
  assert (Hb : forall tr0, backupData E statement pl t tr0 = (Ok None, tr0)).
  { intro tr0. unfold backupData.
    destruct Hno as [-> | [p [-> Hp]]]; [reflexivity|].
    rewrite Hp. reflexivity. }
  split; [apply Hb|].
  intros uid Hun Hsh.
  unfold RunOnce. rewrite Hun. cbv [bind emit]. rewrite Hsh.
  unfold try. rewrite Hb. cbv [ret bind emit].
  destruct (run_migration E t uid statement (pl_schema_version pl)) as [[tm r] er].
  rewrite <- app_assoc. reflexivity.
Qed.

Lemma no_backup_target_skips_witness :
  let E := Samples.sample_env Samples.sample_payload_no_backup ([], None)
             (fun _ _ => None) None in
  backupData E Samples.sample_statement Samples.sample_payload_no_backup Samples.sample_task []
    = (Ok None, []) /\
  (forall uid,
     unmarshal_payload E (task_payload Samples.sample_task) = inl Samples.sample_payload_no_backup ->
     get_sheet_statement E (pl_sheet_id Samples.sample_payload_no_backup) =
       inl Samples.sample_statement ->
     RunOnce E Samples.sample_task uid [] =
       (let '(terminated, result, err) :=
          run_migration E Samples.sample_task uid Samples.sample_statement
            (pl_schema_version Samples.sample_payload_no_backup) in
        (Ok (terminated, option_map (set_prior_backup None) result, err),
         [] ++ [EvGetSheet (pl_sheet_id Samples.sample_payload_no_backup);
                EvRunMigration Samples.sample_statement]))).
Proof.
  intro E.
  apply (no_backup_target_skips E Samples.sample_statement Samples.sample_payload_no_backup
           Samples.sample_task []).
  left. reflexivity.
Defined.

(** C10: once the lookups succeed and the transformation returns [sts]
    without error, (1) if every SQL execution succeeds, [backupData]
    returns one item per statement, whatever [CreateIssueComment] returns,
    each failure of it leaving only a warning in the log; (2) if executing
    one of the backup statements fails, [backupData] fails. *)
Theorem issue_comment_failure_only_logged E statement pl t pubd inst db iss bi bn bdb bdrv drv
    sts tr :
  lookups_ok E pl t pubd inst db iss bi bn bdb bdrv drv ->
  transform_dml E (inst_engine inst) (transform_context_of E inst drv) statement (db_name db)
    bn ("_"%string ++ now_prefix E) = (sts, None) ->
  ((forall d s, execute E d s = None) ->
   exists ext,
     backupData E statement pl t tr =
       (Ok (Some (mkDetail (map (item_of (format_database E (db_instance_id db) (db_name db))
                                   (pubd_database pubd)) sts))), tr ++ ext) /\
     (forall st e, In st sts -> create_issue_comment E (comment_of E iss t bn st) = Some e ->
        In (EvWarn "failed to create issue comment"%string) ext)) /\
  (forall st e, In st sts -> execute E drv (bs_statement st) = Some e ->
   exists msg tr', backupData E statement pl t tr = (Err msg, tr')).
Proof.
  intros Hok Htr.
  destruct (backupData_reduces E statement pl t pubd inst db iss bi bn bdb bdrv drv sts
              None tr Hok Htr) as [pre [Heq _]].
  rewrite Heq.
  assert (Hbd : inst_engine inst = Engine_MSSQL -> backup_driver_of inst bdrv <> None).
  { unfold backup_driver_of. intros ->. discriminate. }
  split.
  - intros Hex.
    destruct (backup_loop_ok E (inst_engine inst) iss t drv (backup_driver_of inst bdrv)
                (format_database E (db_instance_id db) (db_name db)) (pubd_database pubd) bn
                Hbd sts [] (tr ++ pre) Hex) as [ext1 [H1 Hw]].
    rewrite (bind_ok _ _ _ _ _ H1).
    destruct (sync_log_ok E (sync_target_of inst db bdb) ((tr ++ pre) ++ ext1)) as [ext2 H2].
    rewrite (bind_ok _ _ _ _ _ H2).
    exists (pre ++ ext1 ++ ext2). cbv [ret]. rewrite !app_assoc. split; [reflexivity|].
    intros st e Hin Hc. rewrite <- !app_assoc. apply in_app_iff. right.
    apply in_app_iff. left. exact (Hw st e Hin Hc).
  - intros st e Hin He.
    destruct (backup_loop_exec_fails E (inst_engine inst) iss t drv (backup_driver_of inst bdrv)
                (format_database E (db_instance_id db) (db_name db)) (pubd_database pubd) bn
                Hbd sts [] (tr ++ pre) st e Hin He) as [msg [tr' H1]].
    rewrite (bind_err _ _ _ _ _ H1). eauto.
Qed.

Lemma issue_comment_failure_only_logged_witness :
  let E := Samples.sample_env Samples.sample_payload ([Samples.sample_backup_statement], None)
             (fun _ _ => None) (Some "store unavailable"%string) in
  ((forall d s, execute E d s = None) ->
   exists ext,
     backupData E Samples.sample_statement Samples.sample_payload Samples.sample_task [] =
       (Ok (Some (mkDetail (map (item_of "instances/prod/databases/app"%string
                                   "instances/prod/databases/bbdataarchive"%string)
                               [Samples.sample_backup_statement]))), [] ++ ext) /\
     (forall st e, In st [Samples.sample_backup_statement] ->
        create_issue_comment E (comment_of E Samples.sample_issue Samples.sample_task
                                  "bbdataarchive"%string st) = Some e ->
        In (EvWarn "failed to create issue comment"%string) ext)) /\
  (forall st e, In st [Samples.sample_backup_statement] -> execute E 3 (bs_statement st) = Some e ->
   exists msg tr', backupData E Samples.sample_statement Samples.sample_payload
                     Samples.sample_task [] = (Err msg, tr')).
Proof.
  intro E.
  apply (issue_comment_failure_only_logged E Samples.sample_statement Samples.sample_payload
           Samples.sample_task (mkPreUpdate "instances/prod/databases/bbdataarchive"%string)
           Samples.sample_instance Samples.sample_database Samples.sample_issue
           "prod"%string "bbdataarchive"%string Samples.sample_backup_database 9 3
           [Samples.sample_backup_statement] []).
  - unfold lookups_ok. repeat split; try reflexivity; try discriminate.
  - reflexivity.
Defined.

End ExecutorFacts.

(** * Further properties of the executor *)

Module ExecutorExtras.

Import Executor ExecutorFacts.

Lemma executed_app l1 l2 : executed (l1 ++ l2) = executed l1 ++ executed l2.
Proof. induction l1 as [|[] l1 IH]; simpl; try rewrite IH; reflexivity. Qed.

Lemma issue_comments_app l1 l2 : issue_comments (l1 ++ l2) = issue_comments l1 ++ issue_comments l2.
Proof. induction l1 as [|[] l1 IH]; simpl; try rewrite IH; reflexivity. Qed.

Lemma executed_map_exec l : executed (map ev_exec l) = l.
Proof. induction l as [|[d s] l IH]; simpl; [|rewrite IH]; reflexivity. Qed.

Lemma issue_comments_map_exec l : issue_comments (map ev_exec l) = [].
Proof. induction l as [|[d s] l IH]; simpl; [|rewrite IH]; reflexivity. Qed.

Lemma loop_event_map_exec l : forallb loop_event (map ev_exec l) = true.
Proof. induction l as [|x l IH]; simpl; auto. Qed.

Section Loop.

Variable E : env.
Variables (eng : engine) (iss : issue) (t : task) (drv : driver) (bd : option driver)
  (src tgt bn : string).

Hypothesis Hbd : eng = Engine_MSSQL -> bd <> None.

Lemma set_table_comment_sql st tr :
  (forall d s, In (d, s) (comment_sql eng iss bn drv bd st) -> execute E d s = None) ->
  set_table_comment E eng bn st iss drv bd tr =
    (Ok tt, tr ++ map ev_exec (comment_sql eng iss bn drv bd st)).
Proof.
  unfold set_table_comment, comment_sql. intro Hex.
  destruct (comment_statement eng bn st iss) as [[[|] c]|] eqn:Hc.
  - destruct bd as [b|] eqn:Hb.
    + cbv [bind deref ret]. apply run_exec_ok. apply Hex. left. reflexivity.
    + exfalso. destruct eng; try discriminate. apply Hbd; reflexivity.
  - apply run_exec_ok. apply Hex. left. reflexivity.
  - rewrite app_nil_r. reflexivity.
Qed.

Lemma set_table_comment_fails st tr d c e :
  comment_sql eng iss bn drv bd st = [(d, c)] -> execute E d c = Some e ->
  set_table_comment E eng bn st iss drv bd tr =
    (Err (wrap "failed to set table comment" e), tr ++ [EvExecute d c]).
Proof.
  unfold set_table_comment, comment_sql. intros Hc He.
  destruct (comment_statement eng bn st iss) as [[[|] c']|] eqn:Hcs; try discriminate.
  - destruct bd as [b|]; [|discriminate]. injection Hc as -> ->.
    cbv [bind deref ret]. apply run_exec_err. exact He.
  - injection Hc as -> ->. apply run_exec_err. exact He.
Qed.

(** Running the loop over [pre ++ rest] when all SQL of [pre] succeeds. *)
Lemma backup_loop_app pre : forall acc rest tr,
  (forall d s, In (d, s) (List.concat (map (backup_sql eng iss bn drv bd) pre)) ->
     execute E d s = None) ->
  exists ext,
    backup_loop E eng iss t drv bd src tgt bn acc (pre ++ rest) tr =
      backup_loop E eng iss t drv bd src tgt bn (acc ++ map (item_of src tgt) pre) rest
        (tr ++ ext) /\
    executed ext = List.concat (map (backup_sql eng iss bn drv bd) pre) /\
    issue_comments ext = map (comment_of E iss t bn) pre /\
    forallb loop_event ext = true.
Proof.
  induction pre as [|st pre IH]; intros acc rest tr Hex.
  - exists []. rewrite !app_nil_r. auto.
  - cbn [List.app backup_loop].
    simpl in Hex.
    rewrite (bind_ok _ _ _ _ _ (run_exec_ok E _ _ _ tr (Hex _ _ (or_introl eq_refl)))).
    rewrite (bind_ok _ _ _ _ _ (set_table_comment_sql st _
               (fun d s H => Hex d s (or_intror (in_or_app _ _ _ (or_introl H)))))).
    rewrite (bind_ok _ _ _ _ _ (record_issue_comment_res _ _ _)).
    match goal with
    | |- context [backup_loop E eng iss t drv bd src tgt bn ?a (pre ++ rest) ?tr0] =>
        destruct (IH a rest tr0) as [ext [Heq [Hx [Hc Hl]]]]
    end.
    { intros d s H. apply Hex. right. apply in_or_app. right. exact H. }
    rewrite Heq. eexists. split; [|split; [|split]].
    + rewrite <- !app_assoc. cbn [List.app]. f_equal.
    + destruct (create_issue_comment E _); cbn [List.app executed];
        rewrite !executed_app; cbn [executed List.app];
        rewrite ?executed_app, executed_map_exec, Hx; reflexivity.
    + destruct (create_issue_comment E _); cbn [List.app issue_comments];
        rewrite !issue_comments_app; cbn [issue_comments List.app];
        rewrite ?issue_comments_app, issue_comments_map_exec, Hc; reflexivity.
    + destruct (create_issue_comment E _); cbn [List.app forallb loop_event andb];
        rewrite ?forallb_app; cbn [forallb loop_event andb];
        rewrite ?forallb_app, loop_event_map_exec, Hl; reflexivity.
Qed.

End Loop.

Lemma backupData_prefix E statement pl t pubd inst db iss bi bn bdb bdrv drv sts err tr :
  lookups_ok E pl t pubd inst db iss bi bn bdb bdrv drv ->
  transform_dml E (inst_engine inst) (transform_context_of E inst drv) statement (db_name db)
    bn ("_" ++ now_prefix E) = (sts, err) ->
  backupData E statement pl t tr =
    match err with
    | Some e => (Err (wrap "failed to transform DML to select" e),
                 tr ++ lookup_events t inst db bi bn bdb drv statement)
    | None =>
        bind (backup_loop E (inst_engine inst) iss t drv (backup_driver_of inst bdrv)
                (format_database E (db_instance_id db) (db_name db)) (pubd_database pubd) bn
                [] sts)
          (fun its => sync_log E (sync_target_of inst db bdb);;; ret (Some (mkDetail its)))
          (tr ++ lookup_events t inst db bi bn bdb drv statement)
    end.
Proof.
  intros (Hpl & Hne & Hi & Hd & His & Hid & Hbk & Hdrv) Htr.
  unfold backupData, lookup_events. rewrite Hpl.
  rewrite (proj2 (String.eqb_neq _ _) Hne).
  rewrite Hi, Hd, His, Hid.
  unfold backup_driver_of, sync_target_of, transform_context_of in *.
  cbv [bind emit check ret deref fail].
  destruct (inst_engine inst) eqn:Heng;
    try (destruct Hbk as [Hbd Hbdrv]; [discriminate|]; rewrite Hbd, Hbdrv);
    cbv [bind emit check ret deref fail]; cbn [engine_eqb];
    rewrite Hdrv; cbv [bind emit check ret deref fail]; cbn [engine_eqb];
    cbn [engine_eqb] in Htr; rewrite Htr; cbv [bind emit check ret deref fail];
    rewrite <- !app_assoc; cbn [List.app];
    destruct err; reflexivity.
Qed.


Lemma backup_driver_of_mssql inst bdrv :
  inst_engine inst = Engine_MSSQL -> backup_driver_of inst bdrv <> None.
Proof. unfold backup_driver_of. intros ->. discriminate. Qed.

Lemma executed_lookup_events t inst db bi bn bdb drv statement :
  executed (lookup_events t inst db bi bn bdb drv statement) = [].
Proof.
  unfold lookup_events.
  destruct (engine_eqb (inst_engine inst) Engine_POSTGRES),
           (engine_eqb (inst_engine inst) Engine_ORACLE); reflexivity.
Qed.

Lemma issue_comments_lookup_events t inst db bi bn bdb drv statement :
  issue_comments (lookup_events t inst db bi bn bdb drv statement) = [].
Proof.
  unfold lookup_events.
  destruct (engine_eqb (inst_engine inst) Engine_POSTGRES),
           (engine_eqb (inst_engine inst) Engine_ORACLE); reflexivity.
Qed.



Lemma backup_loop_shape E eng iss t drv bd src tgt bn sts : forall acc tr,
  exists o ext,
    backup_loop E eng iss t drv bd src tgt bn acc sts tr = (o, tr ++ ext) /\
    forallb loop_event ext = true /\
    ((eng = Engine_MSSQL -> bd <> None) -> o <> Panic).
Proof.
  induction sts as [|st sts IH]; intros acc tr.
  - exists (Ok acc), []. rewrite app_nil_r. split; [reflexivity|]. split; [reflexivity|].
    discriminate.
  - cbn [backup_loop]. unfold run_exec at 1. cbv [bind emit ret fail].
    destruct (execute E drv (bs_statement st)) as [e|].
    + eexists _, _. split; [reflexivity|]. split; [reflexivity|]. discriminate.
    + unfold set_table_comment.
      destruct (comment_statement eng bn st iss) as [[[|] c]|] eqn:Hc.
      * destruct bd as [b|].
        -- unfold run_exec. cbv [bind emit ret fail deref].
           destruct (execute E b c) as [e|].
           ++ eexists _, _. split; [rewrite <- !app_assoc; reflexivity|].
              split; [reflexivity|]. discriminate.
           ++ unfold record_issue_comment. cbv [bind emit ret].
              destruct (create_issue_comment E _);
                match goal with
                | |- context [backup_loop E eng iss t drv (Some b) src tgt bn ?a sts ?tr0] =>
                    destruct (IH a tr0) as [o [ext [Heq [Hl Hp]]]]; rewrite Heq
                end;
                eexists o, _; (split; [rewrite <- !app_assoc; reflexivity|]);
                (split; [simpl; rewrite ?forallb_app; simpl; rewrite ?Hl; reflexivity|]);
                exact Hp.
        -- cbv [deref panic bind]. eexists _, _. split; [reflexivity|].
           split; [reflexivity|].
           intros H. exfalso. destruct eng; try discriminate. apply H; reflexivity.
      * unfold run_exec. cbv [bind emit ret fail].
        destruct (execute E drv c) as [e|].
        -- eexists _, _. split; [rewrite <- !app_assoc; reflexivity|].
           split; [reflexivity|]. discriminate.
        -- unfold record_issue_comment. cbv [bind emit ret].
           destruct (create_issue_comment E _);
             match goal with
             | |- context [backup_loop E eng iss t drv bd src tgt bn ?a sts ?tr0] =>
                 destruct (IH a tr0) as [o [ext [Heq [Hl Hp]]]]; rewrite Heq
             end;
             eexists o, _; (split; [rewrite <- !app_assoc; reflexivity|]);
             (split; [simpl; rewrite ?forallb_app; simpl; rewrite ?Hl; reflexivity|]);
             exact Hp.
      * cbv [ret]. unfold record_issue_comment. cbv [bind emit ret].
        destruct (create_issue_comment E _);
          match goal with
          | |- context [backup_loop E eng iss t drv bd src tgt bn ?a sts ?tr0] =>
              destruct (IH a tr0) as [o [ext [Heq [Hl Hp]]]]; rewrite Heq
          end;
          eexists o, _; (split; [rewrite <- !app_assoc; reflexivity|]);
          (split; [simpl; rewrite ?forallb_app; simpl; rewrite ?Hl; reflexivity|]);
          exact Hp.
Qed.

(** Case analysis over every path of [backupData]: each lookup, the engine,
    the transformation; the loop is summarised by [backup_loop_shape]. *)
Ltac backup_paths :=
  repeat (cbv [bind emit check ret deref fail panic sync_log] in *;
    match goal with
    | |- context [engine_eqb (inst_engine ?i) _] =>
        destruct (inst_engine i) eqn:?; cbn [engine_eqb]
    | |- context [match backup_loop ?E ?eng ?iss ?t ?drv ?bd ?src ?tgt ?bn ?acc ?sts ?tr with _ => _ end] =>
        let o := fresh "o" in let ext := fresh "ext" in
        let Hq := fresh "Hq" in let Hl := fresh "Hl" in let Hp := fresh "Hp" in
        destruct (backup_loop_shape E eng iss t drv bd src tgt bn sts acc tr)
          as [o [ext [Hq [Hl Hp]]]];
        rewrite Hq; destruct o
    | |- context [match ?x with _ => _ end] =>
        lazymatch x with
        | backup_loop _ _ _ _ _ _ _ _ _ _ _ _ => fail
        | context [match _ with _ => _ end] => fail
        | _ => destruct x eqn:?
        end
    end).

(** [backupData] panics (a nil dereference in Go) exactly when the backup
    target is set, the instance, database and issue lookups return no error,
    the issue is found, and then either the database lookup found nothing
    ([database.InstanceID] on nil) or, the backup database name having
    parsed, the instance lookup found nothing ([instance.Engine] on nil). It
    panics on no other path. *)
Theorem backupData_panics_iff E statement pl t tr :
  fst (backupData E statement pl t tr) = Panic <->
  exists pubd io dbo iss,
    pl_pre_update_backup_detail pl = Some pubd /\ pubd_database pubd <> ""%string /\
    get_instance E (task_instance_id t) = inl io /\
    get_database_by_uid E (task_database_id t) = inl dbo /\
    get_issue E (task_pipeline_id t) = inl (Some iss) /\
    (dbo = None \/
     exists db ids, dbo = Some db /\
       get_instance_database_id E (pubd_database pubd) = inl ids /\ io = None).
Proof.
  split.
  - unfold backupData. backup_paths; cbn [fst]; intro H; try discriminate H;
      try (exfalso; apply Hp; [intros Heng; (discriminate Heng || discriminate) | reflexivity]).
    all: match goal with
         | Hpl : pl_pre_update_backup_detail _ = Some ?p |- _ => exists p
         end;
      do 3 eexists; split; [reflexivity|];
      (split; [apply String.eqb_neq; assumption|]);
      (split; [reflexivity|]); (split; [reflexivity|]); (split; [reflexivity|]);
      first [ left; reflexivity
            | right; eexists _, _; split; [reflexivity|split; [eassumption|reflexivity]] ].
  - intros (pubd & io & dbo & iss & Hpl & Hne & Hi & Hd & His & Hcase).
    unfold backupData. rewrite Hpl, (proj2 (String.eqb_neq _ _) Hne).
    cbv [bind emit check ret deref fail panic]. rewrite Hi, Hd, His.
    destruct Hcase as [-> | (db & [bi bn] & -> & Hid & ->)]; [reflexivity|].
    rewrite Hid. reflexivity.
Qed.

Lemma loop_event_in l x : forallb loop_event l = true -> In x l -> loop_event x = true.
Proof. intros H Hin. rewrite forallb_forall in H. auto. Qed.

(** Membership in a trace [tr ++ ...] produced by a path of [backupData]. *)
Ltac trace_in H :=
  cbn [snd] in H; rewrite ?in_app_iff in H; simpl in H;
  repeat match type of H with
         | _ \/ _ => destruct H as [H|H]
         end;
  try discriminate H; try contradiction; try assumption.

Lemma backupData_never_migrates E statement pl t tr s :
  In (EvRunMigration s) (snd (backupData E statement pl t tr)) -> In (EvRunMigration s) tr.
Proof.
  unfold backupData. backup_paths; intro H; trace_in H;
    apply (loop_event_in _ _ Hl) in H; discriminate H.
Qed.

(** [backupData] runs SQL only once all its lookups have succeeded and the
    transformation has returned no error: any statement it executes comes
    from a run where [lookups_ok] holds and [TransformDMLToSelect] succeeded. *)
Theorem backupData_sql_after_lookups E statement pl t tr d s :
  In (EvExecute d s) (snd (backupData E statement pl t tr)) -> ~ In (EvExecute d s) tr ->
  exists pubd inst db iss bi bn bdb bdrv drv sts,
    lookups_ok E pl t pubd inst db iss bi bn bdb bdrv drv /\
    transform_dml E (inst_engine inst) (transform_context_of E inst drv) statement (db_name db)
      bn ("_" ++ now_prefix E) = (sts, None).
Proof.
  unfold backupData. backup_paths; intros H Hnot; trace_in H;
  match goal with
  | Hpl : pl_pre_update_backup_detail _ = Some ?p,
    Hi : get_instance _ _ = inl (Some ?i),
    Hd : get_database_by_uid _ _ = inl (Some ?db),
    His : get_issue _ _ = inl (Some ?iss),
    Hid : get_instance_database_id _ _ = inl (?bi, ?bn),
    Hdrv : get_admin_driver _ ?i ?db = inl ?drv,
    Htr : transform_dml _ _ _ _ _ _ _ = (?sts, None),
    He : inst_engine ?i = _ |- _ =>
      first
        [ match goal with
          | Hb : get_database_by_name _ _ _ = inl (Some ?bdb),
            Hbd : get_admin_driver _ _ ?bdb = inl ?bdrv |- _ =>
              exists p, i, db, iss, bi, bn, bdb, bdrv, drv, sts
          end
        | exists p, i, db, iss, bi, bn, db, drv, drv, sts ];
      split;
      [ unfold lookups_ok; rewrite He;
        repeat split; try eassumption;
        try (apply String.eqb_neq; assumption);
        try (intros _; split; eassumption);
        try (intro Hn; exfalso; apply Hn; reflexivity);
        try (exfalso; match goal with Hn : ?x <> ?x |- _ => apply Hn; reflexivity end)
      | rewrite He; exact Htr ]
  end.
Qed.

Lemma backup_loop_exec_err E eng iss t drv bd src tgt bn acc st rest tr e :
  execute E drv (bs_statement st) = Some e ->
  backup_loop E eng iss t drv bd src tgt bn acc (st :: rest) tr =
    (Err (wrap ("failed to execute backup statement " ++ bs_statement st) e),
     tr ++ [EvExecute drv (bs_statement st)]).
Proof.
  intro He. cbn [backup_loop]. exact (bind_err _ _ _ _ _ (run_exec_err E _ _ _ tr e He)).
Qed.

Lemma not_loop_sync ext db :
  forallb loop_event ext = true -> ~ In (EvSyncSchema db) ext.
Proof. intros Hl Hin. apply (loop_event_in _ _ Hl) in Hin. discriminate Hin. Qed.

(** When executing the backup statement of [st] fails after the statements
    [pre] before it were backed up, [backupData] fails: it has run the SQL
    of [pre] and the failing statement and nothing after it, created the
    issue comments of [pre] only, and not synced any schema. *)
Theorem backupData_stops_at_failed_statement E statement pl t pubd inst db iss bi bn bdb bdrv
    drv pre st post e tr :
  lookups_ok E pl t pubd inst db iss bi bn bdb bdrv drv ->
  transform_dml E (inst_engine inst) (transform_context_of E inst drv) statement (db_name db)
    bn ("_" ++ now_prefix E) = (pre ++ st :: post, None) ->
  (forall d s, In (d, s) (List.concat (map (backup_sql (inst_engine inst) iss bn drv
                                              (backup_driver_of inst bdrv)) pre)) ->
     execute E d s = None) ->
  execute E drv (bs_statement st) = Some e ->
  exists msg ext,
    backupData E statement pl t tr =
      (Err msg, tr ++ lookup_events t inst db bi bn bdb drv statement ++ ext) /\
    executed ext = List.concat (map (backup_sql (inst_engine inst) iss bn drv
                                     (backup_driver_of inst bdrv)) pre)
                   ++ [(drv, bs_statement st)] /\
    issue_comments ext = map (comment_of E iss t bn) pre /\
    (forall db', ~ In (EvSyncSchema db') ext).
Proof.
  intros Hok Htr Hex He.
  rewrite (backupData_prefix E statement pl t pubd inst db iss bi bn bdb bdrv drv _ None tr
             Hok Htr).
  destruct (backup_loop_app E (inst_engine inst) iss t drv (backup_driver_of inst bdrv)
              (format_database E (db_instance_id db) (db_name db)) (pubd_database pubd) bn
              (backup_driver_of_mssql inst bdrv) pre [] (st :: post)
              (tr ++ lookup_events t inst db bi bn bdb drv statement) Hex)
    as [ext [Heq [Hx [Hc Hl]]]].
  unfold bind at 1. rewrite Heq, backup_loop_exec_err with (e := e) by exact He.
  eexists _, (ext ++ [EvExecute drv (bs_statement st)]).
  split; [rewrite <- !app_assoc; reflexivity|].
  split; [rewrite executed_app, Hx; reflexivity|].
  split; [rewrite issue_comments_app, Hc, app_nil_r; reflexivity|].
  intros db' Hin. apply in_app_iff in Hin as [Hin|[Hin|[]]].
  - exact (not_loop_sync ext db' Hl Hin).
  - discriminate Hin.
Qed.

(** When the backup statement of [st] succeeds but its table comment fails,
    [backupData] fails with ["failed to set table comment"]: the backup
    table of [st] has been created, no issue comment is created for it, and
    nothing after it runs. *)
Theorem backupData_table_comment_failure E statement pl t pubd inst db iss bi bn bdb bdrv
    drv pre st post d c e tr :
  lookups_ok E pl t pubd inst db iss bi bn bdb bdrv drv ->
  transform_dml E (inst_engine inst) (transform_context_of E inst drv) statement (db_name db)
    bn ("_" ++ now_prefix E) = (pre ++ st :: post, None) ->
  (forall d s, In (d, s) (List.concat (map (backup_sql (inst_engine inst) iss bn drv
                                              (backup_driver_of inst bdrv)) pre)) ->
     execute E d s = None) ->
  execute E drv (bs_statement st) = None ->
  comment_sql (inst_engine inst) iss bn drv (backup_driver_of inst bdrv) st = [(d, c)] ->
  execute E d c = Some e ->
  exists ext,
    backupData E statement pl t tr =
      (Err (wrap "failed to set table comment" e),
       tr ++ lookup_events t inst db bi bn bdb drv statement ++ ext) /\
    executed ext = List.concat (map (backup_sql (inst_engine inst) iss bn drv
                                     (backup_driver_of inst bdrv)) pre)
                   ++ [(drv, bs_statement st); (d, c)] /\
    issue_comments ext = map (comment_of E iss t bn) pre.
Proof.
  intros Hok Htr Hex He Hc Hce.
  rewrite (backupData_prefix E statement pl t pubd inst db iss bi bn bdb bdrv drv _ None tr
             Hok Htr).
  destruct (backup_loop_app E (inst_engine inst) iss t drv (backup_driver_of inst bdrv)
              (format_database E (db_instance_id db) (db_name db)) (pubd_database pubd) bn
              (backup_driver_of_mssql inst bdrv) pre [] (st :: post)
              (tr ++ lookup_events t inst db bi bn bdb drv statement) Hex)
    as [ext [Heq [Hx [Hcm Hl]]]].
  unfold bind at 1. rewrite Heq.
  cbn [backup_loop].
  rewrite (bind_ok _ _ _ _ _ (run_exec_ok E _ _ _ _ He)).
  rewrite (bind_err _ _ _ _ _ (set_table_comment_fails E _ iss drv _ bn
                              (backup_driver_of_mssql inst bdrv) st _ d c e Hc Hce)).
  exists (ext ++ [EvExecute drv (bs_statement st); EvExecute d c]).
  split; [rewrite <- !app_assoc; reflexivity|].
  split; [rewrite executed_app, Hx; reflexivity|].
  rewrite issue_comments_app, Hcm, app_nil_r. reflexivity.
Qed.




(** With a backup target set, a failing lookup of the instance, of the
    database or of the issue, or an issue not found, makes [backupData]
    return the corresponding error right after that lookup, before any
    driver is opened or any SQL is run. *)
Theorem backupData_early_lookup_errors E statement pl t pubd tr :
  pl_pre_update_backup_detail pl = Some pubd -> pubd_database pubd <> ""%string ->
  (forall e, get_instance E (task_instance_id t) = inr e ->
     backupData E statement pl t tr =
       (Err (wrap "failed to get instance" e), tr ++ [EvGetInstance (task_instance_id t)])) /\
  (forall io e, get_instance E (task_instance_id t) = inl io ->
     get_database_by_uid E (task_database_id t) = inr e ->
     backupData E statement pl t tr =
       (Err (wrap "failed to get database" e),
        tr ++ [EvGetInstance (task_instance_id t); EvGetDatabase (task_database_id t)])) /\
  (forall io dbo e, get_instance E (task_instance_id t) = inl io ->
     get_database_by_uid E (task_database_id t) = inl dbo ->
     get_issue E (task_pipeline_id t) = inr e ->
     backupData E statement pl t tr =
       (Err (wrap ("failed to find issue for pipeline " ++ nat_str (task_pipeline_id t))%string e),
        tr ++ [EvGetInstance (task_instance_id t); EvGetDatabase (task_database_id t);
               EvGetIssue (task_pipeline_id t)])) /\
  (forall io dbo, get_instance E (task_instance_id t) = inl io ->
     get_database_by_uid E (task_database_id t) = inl dbo ->
     get_issue E (task_pipeline_id t) = inl None ->
     backupData E statement pl t tr =
       (Err ("issue not found for pipeline " ++ nat_str (task_pipeline_id t))%string,
        tr ++ [EvGetInstance (task_instance_id t); EvGetDatabase (task_database_id t);
               EvGetIssue (task_pipeline_id t)])).
Proof.
  intros Hpl Hne.
  unfold backupData. rewrite Hpl, (proj2 (String.eqb_neq _ _) Hne).
  repeat split; intros *; cbv [bind emit check ret fail];
    intros; repeat match goal with H : _ = _ |- _ => rewrite H; clear H end;
    rewrite <- ?app_assoc; reflexivity.
Qed.


(** [BuildGetDatabaseMetadataFunc] returns an error only with an empty name
    and no metadata, and the error is the one of [GetDatabaseV2] or of
    [GetDBSchema]; it returns metadata only with the requested database name
    and no error, and only when the database and its schema are found; a
    database not found gives an empty name, no metadata and no error. *)
Theorem BuildGetDatabaseMetadataFunc_result {S Md : Type} E (gs : nat -> option S + error)
    (gm : S -> option Md) i n :
  (forall e, snd (BuildGetDatabaseMetadataFunc E gs gm i n) = Some e ->
     fst (fst (BuildGetDatabaseMetadataFunc E gs gm i n)) = ""%string /\
     snd (fst (BuildGetDatabaseMetadataFunc E gs gm i n)) = None /\
     (get_database_by_name E i n = inr e \/
      exists db, get_database_by_name E i n = inl (Some db) /\ gs (db_uid db) = inr e)) /\
  (forall m, snd (fst (BuildGetDatabaseMetadataFunc E gs gm i n)) = Some m ->
     fst (fst (BuildGetDatabaseMetadataFunc E gs gm i n)) = n /\
     snd (BuildGetDatabaseMetadataFunc E gs gm i n) = None /\
     exists db sch, get_database_by_name E i n = inl (Some db) /\
       gs (db_uid db) = inl (Some sch) /\ gm sch = Some m) /\
  (get_database_by_name E i n = inl None ->
     BuildGetDatabaseMetadataFunc E gs gm i n = (""%string, None, None)).
Proof.
  unfold BuildGetDatabaseMetadataFunc.
  destruct (get_database_by_name E i n) as [[db|]|e0]; cbn [fst snd];
    [destruct (gs (db_uid db)) as [[sch|]|e1] eqn:Hgs; cbn [fst snd] | |];
    repeat split; intros; try discriminate;
    repeat match goal with H : Some _ = Some _ |- _ => inversion H; clear H; subst end;
    try reflexivity; eauto 7.
Qed.

(** [RunOnce] reports a payload that does not unmarshal, and a sheet that
    cannot be read, as a terminated run with the error and no result; it
    makes no call after the failing one. *)
Theorem RunOnce_early_failures E t uid tr :
  (forall e, unmarshal_payload E (task_payload t) = inr e ->
     RunOnce E t uid tr =
       (Ok (true, None, Some (wrap "invalid database data update payload" e)), tr)) /\
  (forall pl e, unmarshal_payload E (task_payload t) = inl pl ->
     get_sheet_statement E (pl_sheet_id pl) = inr e ->
     RunOnce E t uid tr = (Ok (true, None, Some e), tr ++ [EvGetSheet (pl_sheet_id pl)])).
Proof.
  split.
  - intros e Hun. unfold RunOnce. rewrite Hun. reflexivity.
  - intros pl e Hun Hsh. unfold RunOnce. rewrite Hun. cbv [bind emit ret]. rewrite Hsh.
    reflexivity.
Qed.

(** Starting from a trace with no migration, [RunOnce] runs the migration
    exactly when [backupData] succeeds; an error of [backupData] is returned
    as a terminated run with no result, and on success the migration's result
    carries the prior backup detail [backupData] returned. *)
Theorem RunOnce_migrates_iff_backup_ok E t uid tr pl statement :
  unmarshal_payload E (task_payload t) = inl pl ->
  get_sheet_statement E (pl_sheet_id pl) = inl statement ->
  (forall s, ~ In (EvRunMigration s) tr) ->
  ((exists s, In (EvRunMigration s) (snd (RunOnce E t uid tr))) <->
   exists pbd, fst (backupData E statement pl t (tr ++ [EvGetSheet (pl_sheet_id pl)])) = Ok pbd) /\
  (forall e, fst (backupData E statement pl t (tr ++ [EvGetSheet (pl_sheet_id pl)])) = Err e ->
     fst (RunOnce E t uid tr) = Ok (true, None, Some e)) /\
  (forall pbd tm r er,
     fst (backupData E statement pl t (tr ++ [EvGetSheet (pl_sheet_id pl)])) = Ok pbd ->
     run_migration E t uid statement (pl_schema_version pl) = (tm, r, er) ->
     fst (RunOnce E t uid tr) = Ok (tm, option_map (set_prior_backup pbd) r, er)).
Proof.
  intros Hun Hsh Hfresh.
  assert (Hnm : forall s, In (EvRunMigration s)
                  (snd (backupData E statement pl t (tr ++ [EvGetSheet (pl_sheet_id pl)]))) ->
                False).
  { intros s Hin. apply backupData_never_migrates in Hin.
    apply in_app_iff in Hin as [Hin|[Hin|[]]]; [exact (Hfresh s Hin) | discriminate Hin]. }
  unfold RunOnce. rewrite Hun. cbv [bind emit]. rewrite Hsh. unfold try.
  destruct (backupData E statement pl t (tr ++ [EvGetSheet (pl_sheet_id pl)])) as [o tr']
    eqn:Hb; cbn [fst snd] in *.
  destruct o as [pbd|e|]; cbv [ret].
  - destruct (run_migration E t uid statement (pl_schema_version pl)) as [[tm0 r0] er0] eqn:Hrm.
    repeat split.
    + intros _. eauto.
    + intros _. exists statement. apply in_app_iff. right. left. reflexivity.
    + intros e0 He0. discriminate He0.
    + intros pbd' tm r er Hp Hr. inversion Hp; subst.
      inversion Hr; subst. reflexivity.
  - repeat split.
    + intros [s Hin]. exfalso. exact (Hnm s Hin).
    + intros [pbd Hp]. discriminate Hp.
    + intros e0 He0. inversion He0; subst. reflexivity.
    + intros pbd tm r er Hp. discriminate Hp.
  - repeat split.
    + intros [s Hin]. exfalso. exact (Hnm s Hin).
    + intros [pbd Hp]. discriminate Hp.
    + intros e0 He0. discriminate He0.
    + intros pbd tm r er Hp. discriminate Hp.
Qed.



Lemma backupData_sql_after_lookups_witness :
  let E := Samples.sample_env Samples.sample_payload ([Samples.sample_backup_statement], None)
             (fun _ _ => None) None in
  exists pubd inst db iss bi bn bdb bdrv drv sts,
    lookups_ok E Samples.sample_payload Samples.sample_task pubd inst db iss bi bn bdb bdrv drv /\
    transform_dml E (inst_engine inst) (transform_context_of E inst drv) Samples.sample_statement (db_name db)
      bn ("_" ++ now_prefix E) = (sts, None).
Proof.
  intro E.
  apply (backupData_sql_after_lookups E Samples.sample_statement Samples.sample_payload Samples.sample_task [] 3
           (bs_statement Samples.sample_backup_statement)).
  - vm_compute. repeat (first [left; reflexivity | right]).
  - simpl. tauto.
Defined.

Lemma backupData_stops_at_failed_statement_witness :
  let E := Samples.sample_env Samples.sample_payload ([Samples.sample_backup_statement; Samples.sample_backup_statement2], None)
             (Samples.failing_on (bs_statement Samples.sample_backup_statement2) "disk full"%string) None in
  exists msg ext,
    backupData E Samples.sample_statement Samples.sample_payload Samples.sample_task [] =
      (Err msg, [] ++ lookup_events Samples.sample_task Samples.sample_instance Samples.sample_database "prod"%string "bbdataarchive"%string Samples.sample_backup_database 3 Samples.sample_statement ++ ext) /\
    executed ext = List.concat (map (backup_sql (inst_engine Samples.sample_instance) Samples.sample_issue "bbdataarchive"%string 3
                                     (backup_driver_of Samples.sample_instance 9)) [Samples.sample_backup_statement])
                   ++ [(3, bs_statement Samples.sample_backup_statement2)] /\
    issue_comments ext = map (comment_of E Samples.sample_issue Samples.sample_task "bbdataarchive"%string) [Samples.sample_backup_statement] /\
    (forall db', ~ In (EvSyncSchema db') ext).
Proof.
  intro E.
  apply (backupData_stops_at_failed_statement E Samples.sample_statement Samples.sample_payload
           Samples.sample_task (mkPreUpdate "instances/prod/databases/bbdataarchive"%string) Samples.sample_instance Samples.sample_database
           Samples.sample_issue "prod"%string "bbdataarchive"%string Samples.sample_backup_database 9 3
           [Samples.sample_backup_statement] Samples.sample_backup_statement2 [] "disk full"%string []).
  - unfold lookups_ok. repeat split; try reflexivity; try discriminate.
  - reflexivity.
  - intros d s Hin. vm_compute in Hin.
    destruct Hin as [Hin|[Hin|[]]]; inversion Hin; subst; vm_compute; reflexivity.
  - vm_compute. reflexivity.
Defined.

Lemma backupData_table_comment_failure_witness :
  let E := Samples.sample_env Samples.sample_payload ([Samples.sample_backup_statement], None)
             (Samples.failing_on Samples.sample_comment_sql "permission denied"%string) None in
  exists ext,
    backupData E Samples.sample_statement Samples.sample_payload Samples.sample_task [] =
      (Err (wrap "failed to set table comment" "permission denied"%string),
       [] ++ lookup_events Samples.sample_task Samples.sample_instance Samples.sample_database "prod"%string "bbdataarchive"%string Samples.sample_backup_database 3 Samples.sample_statement ++ ext) /\
    executed ext = List.concat (map (backup_sql (inst_engine Samples.sample_instance) Samples.sample_issue "bbdataarchive"%string 3
                                     (backup_driver_of Samples.sample_instance 9)) [])
                   ++ [(3, bs_statement Samples.sample_backup_statement); (3, Samples.sample_comment_sql)] /\
    issue_comments ext = map (comment_of E Samples.sample_issue Samples.sample_task "bbdataarchive"%string) [].
Proof.
  intro E.
  apply (backupData_table_comment_failure E Samples.sample_statement Samples.sample_payload
           Samples.sample_task (mkPreUpdate "instances/prod/databases/bbdataarchive"%string) Samples.sample_instance Samples.sample_database
           Samples.sample_issue "prod"%string "bbdataarchive"%string Samples.sample_backup_database 9 3
           [] Samples.sample_backup_statement [] 3 Samples.sample_comment_sql "permission denied"%string []).
  - unfold lookups_ok. repeat split; try reflexivity; try discriminate.
  - reflexivity.
  - simpl. tauto.
  - vm_compute. reflexivity.
  - vm_compute. reflexivity.
  - vm_compute. reflexivity.
Defined.


Lemma backupData_early_lookup_errors_witness :
  let E := Samples.sample_env Samples.sample_payload ([], None)
             (fun _ _ => None) None in
  (forall e, get_instance E (task_instance_id Samples.sample_task) = inr e ->
     backupData E Samples.sample_statement Samples.sample_payload Samples.sample_task [] =
       (Err (wrap "failed to get instance" e), [] ++ [EvGetInstance (task_instance_id Samples.sample_task)])) /\
  (forall io e, get_instance E (task_instance_id Samples.sample_task) = inl io ->
     get_database_by_uid E (task_database_id Samples.sample_task) = inr e ->
     backupData E Samples.sample_statement Samples.sample_payload Samples.sample_task [] =
       (Err (wrap "failed to get database" e),
        [] ++ [EvGetInstance (task_instance_id Samples.sample_task); EvGetDatabase (task_database_id Samples.sample_task)])) /\
  (forall io dbo e, get_instance E (task_instance_id Samples.sample_task) = inl io ->
     get_database_by_uid E (task_database_id Samples.sample_task) = inl dbo ->
     get_issue E (task_pipeline_id Samples.sample_task) = inr e ->
     backupData E Samples.sample_statement Samples.sample_payload Samples.sample_task [] =
       (Err (wrap ("failed to find issue for pipeline " ++ nat_str (task_pipeline_id Samples.sample_task))%string e),
        [] ++ [EvGetInstance (task_instance_id Samples.sample_task); EvGetDatabase (task_database_id Samples.sample_task);
               EvGetIssue (task_pipeline_id Samples.sample_task)])) /\
  (forall io dbo, get_instance E (task_instance_id Samples.sample_task) = inl io ->
     get_database_by_uid E (task_database_id Samples.sample_task) = inl dbo ->
     get_issue E (task_pipeline_id Samples.sample_task) = inl None ->
     backupData E Samples.sample_statement Samples.sample_payload Samples.sample_task [] =
       (Err ("issue not found for pipeline " ++ nat_str (task_pipeline_id Samples.sample_task))%string,
        [] ++ [EvGetInstance (task_instance_id Samples.sample_task); EvGetDatabase (task_database_id Samples.sample_task);
               EvGetIssue (task_pipeline_id Samples.sample_task)])).
Proof.
  intro E.
  apply (backupData_early_lookup_errors E Samples.sample_statement Samples.sample_payload Samples.sample_task
           (mkPreUpdate "instances/prod/databases/bbdataarchive"%string) []).
  - reflexivity.
  - discriminate.
Defined.


Lemma RunOnce_migrates_iff_backup_ok_witness :
  let E := Samples.sample_env Samples.sample_payload ([Samples.sample_backup_statement], None)
             (fun _ _ => None) None in
  ((exists s, In (EvRunMigration s) (snd (RunOnce E Samples.sample_task 0 []))) <->
   exists pbd, fst (backupData E Samples.sample_statement Samples.sample_payload Samples.sample_task ([] ++ [EvGetSheet (pl_sheet_id Samples.sample_payload)])) = Ok pbd) /\
  (forall e, fst (backupData E Samples.sample_statement Samples.sample_payload Samples.sample_task ([] ++ [EvGetSheet (pl_sheet_id Samples.sample_payload)])) = Err e ->
     fst (RunOnce E Samples.sample_task 0 []) = Ok (true, None, Some e)) /\
  (forall pbd tm r er,
     fst (backupData E Samples.sample_statement Samples.sample_payload Samples.sample_task ([] ++ [EvGetSheet (pl_sheet_id Samples.sample_payload)])) = Ok pbd ->
     run_migration E Samples.sample_task 0 Samples.sample_statement (pl_schema_version Samples.sample_payload) = (tm, r, er) ->
     fst (RunOnce E Samples.sample_task 0 []) = Ok (tm, option_map (set_prior_backup pbd) r, er)).
Proof.
  intro E.
  apply (RunOnce_migrates_iff_backup_ok E Samples.sample_task 0 [] Samples.sample_payload Samples.sample_statement).
  - reflexivity.
  - reflexivity.
  - intros s Hin. exact Hin.
Defined.

End ExecutorExtras.
